(** * useLiveFileComparison: the live-file reconciliation hook

    A shallow embedding of [src/common/livefile/useLiveFileComparison.tsx]:
    the diff summarizer [calculateDiffStats], the two effects that narrate the
    divergence and the session error, and the callbacks bound to the UI.

    Conventions.
    - A JavaScript string is a Rocq [string]; [String.length] stands for
      [text.length] (one character per UTF-16 code unit).
    - [undefined]/[null] for a string-valued slot is [None].
    - The hook is a function of one render; what it does to the outside
      (React state setters, the session operations returned by [useLiveFile],
      the diff engine) is recorded, in program order, as a list of [Call]s.
    - The diff engine ([makeDiff], [cleanupEfficiency]) comes from a
      third-party package; it is an interface here ([DiffEngine]), of which
      [dmpEngine] spells out the package's first steps. *)

From Stdlib Require Import String Ascii List ZArith Bool Arith Lia.
From Stdlib Require Import Decimal DecimalString Permutation.
Import ListNotations.

Local Open Scope string_scope.
Local Open Scope list_scope.

Set Implicit Arguments.
#[local] Set Warnings "-register-all".

(** ** Data model *)

(** [type LiveFileId = string] (an opaque key of the live-file store). *)
Definition LiveFileId := string.

(** [interface DiffSummary] *)
Record DiffSummary := mkDiffSummary {
  insertions : nat;
  deletions : nat
}.

(** The [mtype] union of [FileOperationStatus]. *)
Inductive MType := info | changes | success | error.

(** [interface FileOperationStatus] *)
Record FileOperationStatus := mkStatus {
  message : string;
  mtype : MType
}.

(** The [fileData] record returned by [useLiveFile]; only the four fields the
    hook reads. *)
Record LiveFileData := mkLiveFileData {
  content : option string;
  fileError : option string;
  isLoading : bool;
  isSaving : bool
}.

(** A [FileSystemFileHandle] is opaque to the hook; its name identifies it. *)
Definition FileSystemFileHandle := string.

(** ** The diff engine interface *)

(** One span of an edit script: [[operation, text]] with operation
    [-1] (delete), [0] (equal) or [1] (insert). *)
Definition Diff := (Z * string)%type.

Definition DIFF_DELETE : Z := (-1)%Z.
Definition DIFF_EQUAL : Z := 0%Z.
Definition DIFF_INSERT : Z := 1%Z.

Record DiffOptions := mkDiffOptions {
  timeout : Z;
  checkLines : bool
}.

Class DiffEngine := {
  makeDiff : string -> string -> DiffOptions -> list Diff;
  cleanupEfficiency : list Diff -> Z -> list Diff
}.

(** ** Recorded calls *)

Inductive Call :=
  (* the diff engine *)
  | CallMakeDiff (fromText toText : string) (opts : DiffOptions)
  | CallCleanupEfficiency (diffs : list Diff) (editCost : Z)
  (* React state setters *)
  | SetDiffSummary (d : option DiffSummary)
  | SetStatus (s : option FileOperationStatus)
  (* props *)
  | SetBufferText (text : string)
  | ReplaceLiveFileId (id : LiveFileId)
  (* operations returned by useLiveFile *)
  | CloseFileContent
  | ReloadFileContent (id : option LiveFileId)
  | SaveFileContent (text : option string)
  (* the live-file store *)
  | LiveFileCreateOrThrow (fsfHandle : FileSystemFileHandle).

(** A computation returns a value and the calls it made, oldest first. *)
Definition Eff (A : Type) : Type := (A * list Call)%type.

Definition ret {A} (a : A) : Eff A := (a, []).

Definition bind {A B} (m : Eff A) (k : A -> Eff B) : Eff B :=
  let (a, l1) := m in
  let (b, l2) := k a in
  (b, l1 ++ l2).

Definition call (c : Call) : Eff unit := (tt, [c]).

Definition calls {A} (m : Eff A) : list Call := snd m.
Definition value {A} (m : Eff A) : A := fst m.

Declare Scope eff_scope.
Delimit Scope eff_scope with eff.
Notation "x <- m ;; k" := (bind m (fun x => k))
  (at level 61, m at next level, right associativity) : eff_scope.
Notation "m ;; k" := (bind m (fun _ => k))
  (at level 61, right associativity) : eff_scope.
Local Open Scope eff_scope.

(** ** JavaScript helpers used by the hook *)

(** Template-literal conversion of a non-negative integer. *)
Definition string_of_nat (n : nat) : string :=
  NilEmpty.string_of_uint (Nat.to_uint n).

(** Truthiness of a number: everything but zero. *)
Definition truthy_nat (n : nat) : bool := negb (Nat.eqb n 0).

(** Truthiness of an optional string: present and not empty. *)
Definition truthy_text (s : option string) : bool :=
  match s with
  | Some t => negb (String.eqb t "")
  | None => false
  end.

(** [===] on two optional strings. *)
Definition text_eqb (a b : option string) : bool :=
  match a, b with
  | Some x, Some y => String.eqb x y
  | None, None => true
  | _, _ => false
  end.

(** ** calculateDiffStats *)

Section Summarizer.
Context {engine : DiffEngine}.

(** The reducer passed to [diffs.reduce]. *)
Definition countDiff (acc : DiffSummary) (d : Diff) : DiffSummary :=
  let (operation, text) := d in
  if (operation =? 1)%Z then
    mkDiffSummary (insertions acc + String.length text) (deletions acc)
  else if (operation =? -1)%Z then
    mkDiffSummary (insertions acc) (deletions acc + String.length text)
  else acc.

Definition sumDiffs (diffs : list Diff) : DiffSummary :=
  fold_left countDiff diffs (mkDiffSummary 0 0).

Definition diffOptions : DiffOptions := mkDiffOptions 1 true.

Definition calculateDiffStats (fromText toText : string) : Eff DiffSummary :=
  let raw := makeDiff fromText toText diffOptions in
  call (CallMakeDiff fromText toText diffOptions) ;;
  let diffs := cleanupEfficiency raw 4 in
  call (CallCleanupEfficiency raw 4) ;;
  ret (sumDiffs diffs).

End Summarizer.

(** ** Thrown values

    [catch (error: any)]: the values a [catch] clause can bind, as far as the
    expression in the handler looks at them. An object carries its
    properties (own and inherited, flattened) and the result of converting
    it to a string. *)

Inductive JsValue :=
  | JsUndefined
  | JsNull
  | JsBoolean (b : bool)
  | JsNumber (n : Z)
  | JsNaN
  | JsString (s : string)
  | JsObject (props : list (string * JsValue)) (str : string).

(** [typeof v] *)
Definition typeof (v : JsValue) : string :=
  match v with
  | JsUndefined => "undefined"
  | JsNull => "object"
  | JsBoolean _ => "boolean"
  | JsNumber _ | JsNaN => "number"
  | JsString _ => "string"
  | JsObject _ _ => "object"
  end.

(** ToBoolean *)
Definition truthy (v : JsValue) : bool :=
  match v with
  | JsUndefined | JsNull | JsNaN => false
  | JsBoolean b => b
  | JsNumber n => negb (n =? 0)%Z
  | JsString s => negb (String.eqb s "")
  | JsObject _ _ => true
  end.

Fixpoint lookupProp (name : string) (props : list (string * JsValue)) : JsValue :=
  match props with
  | [] => JsUndefined
  | (k, v) :: rest => if String.eqb k name then v else lookupProp name rest
  end.

(** [v?.name]: [undefined] on [undefined] and [null]; a primitive has no
    such property of its own. *)
Definition optMember (v : JsValue) (name : string) : JsValue :=
  match v with
  | JsObject props _ => lookupProp name props
  | _ => JsUndefined
  end.

(** [a || b] yields an operand, not a boolean. *)
Definition jsOr (a b : JsValue) : JsValue := if truthy a then a else b.

Definition string_of_Z (n : Z) : string :=
  NilEmpty.string_of_int (Z.to_int n).

(** ToString, as a template literal applies it. *)
Definition toString (v : JsValue) : string :=
  match v with
  | JsUndefined => "undefined"
  | JsNull => "null"
  | JsBoolean true => "true"
  | JsBoolean false => "false"
  | JsNumber n => string_of_Z n
  | JsNaN => "NaN"
  | JsString s => s
  | JsObject _ str => str
  end.

(** [new Error(msg)] with the given [name]: [Error.prototype.toString]
    joins the two with a colon unless one of them is empty. *)
Definition mkError (name msg : string) : JsValue :=
  JsObject [("message", JsString msg); ("name", JsString name)]
    (if String.eqb name "" then msg
     else if String.eqb msg "" then name
     else name ++ ": " ++ msg).

(** ** The hook *)

(** What one render of the hook sees: its arguments and the external state
    handed out by [useLiveFile]. *)
Record Render := mkRender {
  isMobile : bool;
  bufferText : option string;
  fileData : option LiveFileData;
  isPairingValid : bool
}.

(** The hook's own React state. *)
Record HookState := mkHookState {
  diffSummary : option DiffSummary;
  status : option FileOperationStatus
}.

(** *** Derived state *)

Definition fileContent (r : Render) : option string :=
  match fileData r with Some d => content d | None => None end.

Definition fileErrorText (r : Render) : option string :=
  match fileData r with Some d => fileError d | None => None end.

Definition isLoadingFile (r : Render) : bool :=
  match fileData r with Some d => isLoading d | None => false end.

Definition isSavingFile (r : Render) : bool :=
  match fileData r with Some d => isSaving d | None => false end.

Definition fileHasContent (r : Render) : bool :=
  match fileContent r with Some _ => true | None => false end.

Definition fileIsDifferent (st : HookState) : bool :=
  match diffSummary st with
  | Some d => truthy_nat (deletions d) || truthy_nat (insertions d)
  | None => false
  end.

Definition shallUpdateOnRefocus (r : Render) : bool :=
  isPairingValid r && fileHasContent r.

(** *** Effects *)

Section Hook.
Context {engine : DiffEngine}.

Definition setStatus (msg : string) (k : MType) : Eff unit :=
  call (SetStatus (Some (mkStatus msg k))).

Definition when (b : bool) (m : Eff unit) : Eff unit :=
  if b then m else ret tt.

(** [effect] Auto-compute the diffs when the underlying text changes. *)
Definition diffEffect (r : Render) : Eff unit :=
  match fileContent r, bufferText r with
  | Some fc, Some bt =>
    if String.eqb fc bt then
      call (SetDiffSummary (Some (mkDiffSummary 0 0))) ;;
      setStatus (if isMobile r then "Identical to File."
                 else "The File is identical to this Document.") info
    else
      summary <- calculateDiffStats fc bt ;;
      call (SetDiffSummary (Some summary)) ;;
      if truthy_nat (insertions summary) && truthy_nat (deletions summary) then
        setStatus ("Document has " ++ string_of_nat (insertions summary)
                   ++ " insertions and " ++ string_of_nat (deletions summary)
                   ++ " deletions.") changes
      else if truthy_nat (insertions summary) then
        setStatus ("Document has " ++ string_of_nat (insertions summary)
                   ++ " insertions.") changes
      else if truthy_nat (deletions summary) then
        setStatus ("Document has " ++ string_of_nat (deletions summary)
                   ++ " deletions.") changes
      else
        setStatus "No changes." info
  | _, _ => call (SetDiffSummary None)
  end.

(** [effect] On error, replace the status message with the error message. *)
Definition errorEffect (r : Render) : Eff unit :=
  match fileErrorText r with
  | Some text => when (truthy_text (Some text)) (setStatus text error)
  | None => ret tt
  end.

(** *** Callbacks *)

Definition handleCloseFile (r : Render) : Eff unit :=
  call CloseFileContent ;;
  call (SetDiffSummary None) ;;
  call (SetStatus None).

Definition _handleReloadFileContent (r : Render) (liveFileId : option LiveFileId)
  : Eff unit :=
  when (isLoadingFile r) (setStatus "Already Loading file..." info) ;;
  when (negb (fileHasContent r)) (setStatus "Reading file..." info) ;;
  call (ReloadFileContent liveFileId).

(** The operand interpolated by the [catch] clause of
    [handlePairNewFSFHandle]:
    [error?.message || typeof error === 'string' ? error : 'Unknown error']. *)
Definition pairErrorOperand (err : JsValue) : JsValue :=
  if truthy (jsOr (optMember err "message")
                  (JsBoolean (String.eqb (typeof err) "string")))
  then err
  else JsString "Unknown error".

Definition pairErrorStatus (err : JsValue) : FileOperationStatus :=
  mkStatus ("Error pairing the file: " ++ toString (pairErrorOperand err)) error.

(** [created] is what [liveFileCreateOrThrow] does: [inl] a thrown value,
    [inr] the new identifier. [reloadThrown] is the value, if any, with
    which the awaited reload rejects. *)
Definition handlePairNewFSFHandle (r : Render) (fsfHandle : FileSystemFileHandle)
    (created : JsValue + LiveFileId) (reloadThrown : option JsValue) : Eff unit :=
  call (LiveFileCreateOrThrow fsfHandle) ;;
  match created with
  | inl err => call (SetStatus (Some (pairErrorStatus err)))
  | inr liveFileId =>
    call (ReplaceLiveFileId liveFileId) ;;
    _handleReloadFileContent r (Some liveFileId) ;;
    match reloadThrown with
    | Some err => call (SetStatus (Some (pairErrorStatus err)))
    | None => ret tt
    end
  end.

(** [picked] is what the file picker resolves to: [None] when the user
    closed it (the rejection is caught and mapped to [null]), otherwise the
    chosen file with its handle, if the browser provides one. *)
Definition handlePairNewFileWithPicker (r : Render)
    (picked : option (option FileSystemFileHandle))
    (created : JsValue + LiveFileId) (reloadThrown : option JsValue) : Eff unit :=
  match picked with
  | None => ret tt
  | Some (Some handle) => handlePairNewFSFHandle r handle created reloadThrown
  | Some None => setStatus "Browser does not support LiveFile operations." error
  end.

Definition handleLoadFromDisk (r : Render) : Eff unit :=
  match fileContent r with
  | None => setStatus "No file content loaded. Please preview changes first." info
  | Some fc => call (SetBufferText fc)
  end.

(** [saved] is the boolean [saveFileContent] resolves to. *)
Definition handleSaveToDisk (r : Render) (saved : bool) : Eff unit :=
  if negb (isPairingValid r) then
    setStatus "No file paired. Please choose a file first." info
  else
    setStatus "Saving to file..." info ;;
    call (SaveFileContent (bufferText r)) ;;
    when saved (setStatus "Content saved to file." success).

(** The listener subscribed to the window focus observer. *)
Definition focusListener (r : Render) (focused : bool) : Eff unit :=
  when (focused && shallUpdateOnRefocus r) (_handleReloadFileContent r None).

(** *** Scheduling of the effects

    An effect runs after the first render and after every render in which
    one of its dependencies differs from the previous render; the effects of
    one render run in the order they are declared. *)

Definition diffDepsChanged (prev cur : Render) : bool :=
  negb (text_eqb (bufferText prev) (bufferText cur)
        && text_eqb (fileContent prev) (fileContent cur)
        && Bool.eqb (isMobile prev) (isMobile cur)).

Definition errorDepsChanged (prev cur : Render) : bool :=
  negb (text_eqb (fileErrorText prev) (fileErrorText cur)).

(** Does an effect run after render [cur], [prev] being the previous render
    ([None] on the first one)? *)
Definition effectRuns (prev : option Render) (changed : Render -> bool) : bool :=
  match prev with
  | None => true
  | Some p => changed p
  end.

Definition runEffects (prev : option Render) (cur : Render) : Eff unit :=
  when (effectRuns prev (fun p => diffDepsChanged p cur)) (diffEffect cur) ;;
  when (effectRuns prev (fun p => errorDepsChanged p cur)) (errorEffect cur).

End Hook.

(** *** React state after a batch of calls: each setter replaces its slot,
    the last call wins; the other calls leave the hook's state alone. *)

Definition applyCall (st : HookState) (c : Call) : HookState :=
  match c with
  | SetDiffSummary d => mkHookState d (status st)
  | SetStatus s => mkHookState (diffSummary st) s
  | _ => st
  end.

Definition settle {A} (st : HookState) (m : Eff A) : HookState :=
  fold_left applyCall (calls m) st.

(** *** Probes over the recorded calls *)

Definition isDiffCall (c : Call) : bool :=
  match c with
  | CallMakeDiff _ _ _ | CallCleanupEfficiency _ _ => true
  | _ => false
  end.

Definition isReloadCall (c : Call) : bool :=
  match c with ReloadFileContent _ => true | _ => false end.

Definition diffInvocations {A} (m : Eff A) : nat :=
  List.length (filter isDiffCall (calls m)).

Definition reloadInvocations {A} (m : Eff A) : nat :=
  List.length (filter isReloadCall (calls m)).

(** *** The action box

    What [liveFileActionBox] renders, reduced to the parts that depend on the
    hook's data: the sheet's color, the refresh button, the warning icon, the
    status line and the two buttons shown on a divergence. (The buttons to
    pair another file and to close are always there.) *)

Module Palette.
Inductive t := warning | success | neutral.
End Palette.

Inductive ButtonVariant := outlined | plain.

Record ActionButton := mkActionButton {
  variant : ButtonVariant;
  label : string;
  disabled : bool;
  ariaLabel : string
}.

Record ActionBox := mkActionBox {
  color : Palette.t;
  refreshButton : bool;
  warningIcon : bool;
  statusLine : option string;
  loadButton : option ActionButton;
  saveButton : option ActionButton
}.

Definition statusColor (s : option FileOperationStatus) : Palette.t :=
  match option_map mtype s with
  | Some error => Palette.warning
  | Some success => Palette.success
  | Some changes => Palette.neutral
  | _ => Palette.neutral
  end.

Definition isErrorStatus (s : option FileOperationStatus) : bool :=
  match option_map mtype s with
  | Some error => true
  | _ => false
  end.

Definition liveFileActionBox (r : Render) (st : HookState) : option ActionBox :=
  match status st, fileHasContent r with
  | None, false => None
  | _, _ =>
    Some (mkActionBox
            (statusColor (status st))
            (isPairingValid r)
            (isErrorStatus (status st))
            (option_map message (status st))
            (if fileIsDifferent st then
               Some (mkActionButton (if isMobile r then outlined else plain)
                       (if isMobile r then "Update" else "Load from File")
                       false "Load content from disk")
             else None)
            (if fileIsDifferent st then
               Some (mkActionButton (if isMobile r then outlined else plain)
                       (if isMobile r then "Save" else "Save to File")
                       (isSavingFile r) "Save content to disk")
             else None))
  end.

(** ** A concrete engine

    The simplest edit script: equal texts give one equal span (none for the
    empty text); otherwise the common prefix is kept, what is left of the old
    text is deleted and what is left of the new text inserted. It instantiates
    [DiffEngine] wherever a statement is evaluated on concrete texts. *)

Fixpoint commonPrefix (a b : string) : string :=
  match a, b with
  | String x a', String y b' =>
    if Ascii.eqb x y then String x (commonPrefix a' b') else ""
  | _, _ => ""
  end.

Definition dropPrefix (n : nat) (s : string) : string :=
  substring n (String.length s - n) s.

Definition nonEmptySpans (l : list Diff) : list Diff :=
  filter (fun d => negb (String.eqb (snd d) "")) l.

Definition prefixMakeDiff (a b : string) (_ : DiffOptions) : list Diff :=
  if String.eqb a b then nonEmptySpans [(DIFF_EQUAL, a)]
  else
    let p := commonPrefix a b in
    let n := String.length p in
    nonEmptySpans
      [(DIFF_EQUAL, p); (DIFF_DELETE, dropPrefix n a); (DIFF_INSERT, dropPrefix n b)].

Definition prefixEngine : DiffEngine :=
  {| makeDiff := prefixMakeDiff; cleanupEfficiency := fun diffs _ => diffs |}.

(** ** The diff package

    [makeDiff] and [cleanupEfficiency] of the package the hook imports
    (a port of diff-match-patch), after the package's algorithm and as far as
    this development spells it out:
    - [makeDiff] answers equal texts at once, strips the common prefix and
      the common suffix, answers a middle block with an empty side by one
      insert or one delete span, puts the stripped parts back as equal spans
      and merges the script;
    - merging leaves alone a script of non-empty spans made of one edit with
      at most one equal span beside it;
    - the efficiency clean-up only ever rewrites an equal span that follows
      an edit, so it leaves alone a script in which none does.
    Everything else the package does (a text contained in the other, half
    matches, line mode, bisection under the timeout; merging and clean-up of
    scripts that need any) is the parameter [rest]. Texts are taken without
    surrogate pairs, so the package's final adjustment for them is idle. *)

Record DmpRest := mkDmpRest {
  computeRest : string -> string -> DiffOptions -> list Diff;
  mergeRest : list Diff -> list Diff;
  efficiencyRest : list Diff -> Z -> list Diff
}.

Module DiffMatchPatch.

Definition revString (s : string) : string :=
  string_of_list_ascii (List.rev (list_ascii_of_string s)).

(** Length of the longest common prefix, of the longest common suffix. *)
Definition getCommonPrefix (text1 text2 : string) : nat :=
  String.length (commonPrefix text1 text2).

Definition getCommonSuffix (text1 text2 : string) : nat :=
  getCommonPrefix (revString text1) (revString text2).

Definition isEdit (op : Z) : bool := (op =? 1)%Z || (op =? -1)%Z.

Definition computeDiff (rest : DmpRest) (text1 text2 : string) (opts : DiffOptions)
  : list Diff :=
  if String.eqb text1 "" then [(DIFF_INSERT, text2)]
  else if String.eqb text2 "" then [(DIFF_DELETE, text1)]
  else computeRest rest text1 text2 opts.

(** Scripts the merge pass returns as they are. *)
Definition mergeSettled (diffs : list Diff) : bool :=
  forallb (fun d => negb (String.eqb (snd d) "")) diffs
  && match diffs with
     | [(op, _)] => isEdit op
     | [(op1, _); (op2, _)] =>
       ((op1 =? 0)%Z && isEdit op2) || (isEdit op1 && (op2 =? 0)%Z)
     | _ => false
     end.

Definition cleanupMerge (rest : DmpRest) (diffs : list Diff) : list Diff :=
  if mergeSettled diffs then diffs else mergeRest rest diffs.

Definition doDiff (rest : DmpRest) (textA textB : string) (opts : DiffOptions)
  : list Diff :=
  if String.eqb textA textB then
    (if String.eqb textA "" then [] else [(DIFF_EQUAL, textA)])
  else
    let n := getCommonPrefix textA textB in
    let commonprefix := substring 0 n textA in
    let text1 := dropPrefix n textA in
    let text2 := dropPrefix n textB in
    let m := getCommonSuffix text1 text2 in
    let commonsuffix := dropPrefix (String.length text1 - m) text1 in
    let text1 := substring 0 (String.length text1 - m) text1 in
    let text2 := substring 0 (String.length text2 - m) text2 in
    let diffs := computeDiff rest text1 text2 opts in
    cleanupMerge rest
      ((if String.eqb commonprefix "" then [] else [(DIFF_EQUAL, commonprefix)])
       ++ diffs
       ++ (if String.eqb commonsuffix "" then [] else [(DIFF_EQUAL, commonsuffix)])).

Definition makeDiff (rest : DmpRest) (textA textB : string) (opts : DiffOptions)
  : list Diff :=
  doDiff rest textA textB opts.

(** Does an equal span follow an edit somewhere in the script? *)
Fixpoint equalAfterEdit (seenEdit : bool) (diffs : list Diff) : bool :=
  match diffs with
  | [] => false
  | (op, _) :: more =>
    if (op =? 0)%Z then seenEdit || equalAfterEdit false more
    else equalAfterEdit true more
  end.

Definition cleanupEfficiency (rest : DmpRest) (diffs : list Diff) (editCost : Z)
  : list Diff :=
  if equalAfterEdit false diffs then efficiencyRest rest diffs editCost else diffs.

End DiffMatchPatch.

Definition dmpEngine (rest : DmpRest) : DiffEngine :=
  Build_DiffEngine (DiffMatchPatch.makeDiff rest) (DiffMatchPatch.cleanupEfficiency rest).


(** ** Vocabulary of the statements *)

(** The render in which the file content is [fc] and the buffer holds [bt]. *)
Definition comparing (fc bt : string) (mobile : bool) (err : option string)
    (loading saving valid : bool) : Render :=
  mkRender mobile (Some bt) (Some (mkLiveFileData (Some fc) err loading saving)) valid.

(** The status the hook derives from a computed summary. *)
Definition narrated (summary : DiffSummary) (s : option FileOperationStatus) : Prop :=
  let n := insertions summary in
  let m := deletions summary in
  (n <> 0 -> m <> 0 ->
   s = Some (mkStatus ("Document has " ++ string_of_nat n ++ " insertions and "
                       ++ string_of_nat m ++ " deletions.") changes))
  /\ (n <> 0 -> m = 0 ->
      s = Some (mkStatus ("Document has " ++ string_of_nat n ++ " insertions.") changes))
  /\ (n = 0 -> m <> 0 ->
      s = Some (mkStatus ("Document has " ++ string_of_nat m ++ " deletions.") changes))
  /\ (n = 0 -> m = 0 -> s = Some (mkStatus "No changes." info)).

(** The two statuses of the reload callback. *)
Definition alreadyLoading : FileOperationStatus :=
  mkStatus "Already Loading file..." info.

Definition readingFile : FileOperationStatus :=
  mkStatus "Reading file..." info.

(** The script with insert and delete tags exchanged. *)
Definition mirror (d : Diff) : Diff := ((- fst d)%Z, snd d).

(** The text an edit script starts from: its spans but the inserted ones. *)
Fixpoint textBefore (diffs : list Diff) : string :=
  match diffs with
  | [] => ""
  | (op, span) :: rest =>
    if (op =? 1)%Z then textBefore rest else span ++ textBefore rest
  end.

(** The text an edit script arrives at: its spans but the deleted ones. *)
Fixpoint textAfter (diffs : list Diff) : string :=
  match diffs with
  | [] => ""
  | (op, span) :: rest =>
    if (op =? -1)%Z then textAfter rest else span ++ textAfter rest
  end.

(** The total length of the spans carrying the tag [tag]. *)
Definition taggedLength (tag : Z) (diffs : list Diff) : nat :=
  list_sum (map (fun d => String.length (snd d))
                (filter (fun d => (fst d =? tag)%Z) diffs)).

(** The calls by which the hook narrates: its two setters and the engine. *)
Definition isNarrationCall (c : Call) : bool :=
  match c with
  | SetDiffSummary _ | SetStatus _ => true
  | CallMakeDiff _ _ _ | CallCleanupEfficiency _ _ => true
  | _ => false
  end.

(** The statuses a list of calls sets, oldest first. *)
Fixpoint statusesSet (l : list Call) : list (option FileOperationStatus) :=
  match l with
  | [] => []
  | SetStatus s :: rest => s :: statusesSet rest
  | _ :: rest => statusesSet rest
  end.

Definition isSaveCall (c : Call) : bool :=
  match c with SaveFileContent _ => true | _ => false end.

Definition isCreateCall (c : Call) : bool :=
  match c with LiveFileCreateOrThrow _ => true | _ => false end.

Definition isReplaceCall (c : Call) : bool :=
  match c with ReplaceLiveFileId _ => true | _ => false end.

Definition isSetBufferCall (c : Call) : bool :=
  match c with SetBufferText _ => true | _ => false end.

Definition kindOf (s : option FileOperationStatus) : option MType :=
  option_map mtype s.

(** The render [r] once the buffer's owner has stored [text]. *)
Definition withBufferText (r : Render) (text : string) : Render :=
  mkRender (isMobile r) (Some text) (fileData r) (isPairingValid r).

(** Are both texts present and different? Then, and only then, the
    recomputation has to ask the diff engine. *)
Definition textsDiffer (r : Render) : bool :=
  match fileContent r, bufferText r with
  | Some fc, Some bt => negb (String.eqb fc bt)
  | _, _ => false
  end.

(** ** ComposerTextAreaActions

    The component of the second source file, as the list of the elements it
    puts in its box ([None] when it renders nothing). A reference item is
    opaque to it. *)

Record AgiAttachmentPromptsData := mkAgiAttachmentPromptsData {
  prompts : list string;
  isVisible : bool;
  hasData : bool
}.

Section ComposerTextArea.
Variable DMetaReferenceItem : Type.

Record ComposerTextAreaActionsProps := mkComposerTextAreaActionsProps {
  agiAttachmentPrompts : AgiAttachmentPromptsData;
  inReferenceTo : option (list DMetaReferenceItem)
}.

(** A sheet shows [candidate] and, clicked, appends and sends it. *)
Inductive ComposerElement :=
  | InReferenceToBubble (key : nat) (item : DMetaReferenceItem)
  | PromptSheet (key : nat) (candidate : string)
  | AttachmentsPromptsButton (data : AgiAttachmentPromptsData).

(** [array.map((x, index) => f x index)] from index [start] on. *)
Fixpoint mapIndexedFrom {A B} (f : A -> nat -> B) (start : nat) (l : list A) : list B :=
  match l with
  | [] => []
  | x :: rest => f x start :: mapIndexedFrom f (S start) rest
  end.

Definition mapIndexed {A B} (f : A -> nat -> B) (l : list A) : list B :=
  mapIndexedFrom f 0 l.

(** [array?.length] as a truth value. *)
Definition hasLength {A} (l : option (list A)) : bool :=
  match l with
  | Some (_ :: _) => true
  | _ => false
  end.

Definition ComposerTextAreaActions (props : ComposerTextAreaActionsProps)
  : option (list ComposerElement) :=
  let data := agiAttachmentPrompts props in
  if negb (hasLength (Some (prompts data))) && negb (isVisible data)
     && negb (hasLength (inReferenceTo props))
  then None
  else
    Some (match inReferenceTo props with
          | Some items => mapIndexed (fun item index => InReferenceToBubble index item) items
          | None => []
          end
          ++ mapIndexed (fun candidate index => PromptSheet index candidate) (prompts data)
          ++ (if isVisible data || hasData data
              then [AttachmentsPromptsButton data] else [])).

End ComposerTextArea.

(** * Properties *)

(** ** Calls and state of composed computations *)

Lemma calls_bind {A B} (m : Eff A) (k : A -> Eff B) :
  calls (bind m k) = calls m ++ calls (k (value m)).
Proof.
  destruct m as [a l1]; unfold bind, calls, value; simpl.
  destruct (k a) as [b l2]; reflexivity.
Qed.

Lemma settle_bind {A B} (st : HookState) (m : Eff A) (k : A -> Eff B) :
  settle st (bind m k) = settle (settle st m) (k (value m)).
Proof.
  unfold settle; rewrite calls_bind; apply fold_left_app.
Qed.

Lemma value_calculateDiffStats {engine : DiffEngine} (a b : string) :
  value (calculateDiffStats a b)
  = sumDiffs (cleanupEfficiency (makeDiff a b diffOptions) 4).
Proof. reflexivity. Qed.

Lemma reloadInvocations_bind {A B} (m : Eff A) (k : A -> Eff B) :
  reloadInvocations (bind m k)
  = reloadInvocations m + reloadInvocations (k (value m)).
Proof.
  unfold reloadInvocations; rewrite calls_bind, filter_app, length_app; reflexivity.
Qed.

(** [calculateDiffStats] has no fast path: every call reaches the engine,
    once for the script and once for its clean-up. *)
Lemma calls_calculateDiffStats {engine : DiffEngine} (a b : string) :
  calls (calculateDiffStats a b)
  = [CallMakeDiff a b diffOptions;
     CallCleanupEfficiency (makeDiff a b diffOptions) 4].
Proof. reflexivity. Qed.

(** ** The counting rule *)

Lemma fold_countDiff_acc (diffs : list Diff) (acc : DiffSummary) :
  fold_left countDiff diffs acc
  = mkDiffSummary (insertions acc + insertions (sumDiffs diffs))
                  (deletions acc + deletions (sumDiffs diffs)).
Proof.
  unfold sumDiffs.
  revert acc; induction diffs as [|[op text] rest IH]; intros [i d].
  - simpl; f_equal; lia.
  - cbn [fold_left].
    rewrite (IH (countDiff (mkDiffSummary i d) (op, text))).
    rewrite (IH (countDiff (mkDiffSummary 0 0) (op, text))).
    unfold countDiff.
    destruct (op =? 1)%Z; [|destruct (op =? -1)%Z]; simpl; f_equal; lia.
Qed.

Lemma sumDiffs_cons (d : Diff) (rest : list Diff) :
  sumDiffs (d :: rest)
  = mkDiffSummary
      (insertions (countDiff (mkDiffSummary 0 0) d) + insertions (sumDiffs rest))
      (deletions (countDiff (mkDiffSummary 0 0) d) + deletions (sumDiffs rest)).
Proof. unfold sumDiffs at 1; cbn [fold_left]; apply fold_countDiff_acc. Qed.

(** X2. Exchanging the insert and delete tags of a script exchanges the two
    counts of its summary. *)
Lemma sumDiffs_mirror (diffs : list Diff) :
  sumDiffs (map mirror diffs)
  = mkDiffSummary (deletions (sumDiffs diffs)) (insertions (sumDiffs diffs)).
Proof.
  induction diffs as [|[op text] rest IH]; [reflexivity|].
  cbn [map]; rewrite !sumDiffs_cons, IH.
  unfold mirror, countDiff; cbn [fst snd insertions deletions].
  destruct (Z.eqb_spec op 1) as [->|H1].
  - reflexivity.
  - destruct (Z.eqb_spec op (-1)) as [->|H2]; [reflexivity|].
    destruct (Z.eqb_spec (- op) 1); [lia|].
    destruct (Z.eqb_spec (- op) (-1)); [lia|]. reflexivity.
Qed.

(** A script without insert or delete spans counts nothing. *)
Lemma sumDiffs_no_edits (diffs : list Diff) :
  (forall op text, In (op, text) diffs -> op <> 1%Z /\ op <> (-1)%Z) ->
  sumDiffs diffs = mkDiffSummary 0 0.
Proof.
  induction diffs as [|[op text] rest IH]; intros H; [reflexivity|].
  rewrite sumDiffs_cons, IH by (intros o t Hin; apply (H o t); right; exact Hin).
  destruct (H op text (or_introl eq_refl)) as [H1 H2].
  unfold countDiff.
  destruct (Z.eqb_spec op 1); [contradiction|].
  destruct (Z.eqb_spec op (-1)); [contradiction|]. reflexivity.
Qed.

(** ** Recomputation of the divergence *)

(** C2 (as amended). When the file content or the buffer text is absent, the
    recomputation resets the diff summary to null and does nothing else: the
    operation status keeps the value it had. *)
Theorem absent_side_resets_summary_only {engine : DiffEngine}
    (r : Render) (st : HookState) :
  fileContent r = None \/ bufferText r = None ->
  calls (diffEffect r) = [SetDiffSummary None]
  /\ diffSummary (settle st (diffEffect r)) = None
  /\ status (settle st (diffEffect r)) = status st.
Proof.
  intros H; unfold diffEffect.
  destruct (fileContent r) as [fc|]; [destruct (bufferText r) as [bt|]|].
  - destruct H; discriminate.
  - repeat split.
  - repeat split.
Qed.

Lemma absent_side_resets_summary_only_witness :
  let r := mkRender false (Some "hello world")
             (Some (mkLiveFileData None None true false)) true in
  let st := mkHookState (Some (mkDiffSummary 6 0))
              (Some (mkStatus "Document has 6 insertions." changes)) in
  calls (@diffEffect prefixEngine r) = [SetDiffSummary None]
  /\ diffSummary (settle st (@diffEffect prefixEngine r)) = None
  /\ status (settle st (@diffEffect prefixEngine r)) = status st.
Proof.
  intros r st.
  apply (@absent_side_resets_summary_only prefixEngine r st).
  left; reflexivity.
Defined.

(** C2, as stated, fails: with no file content (a session whose first read
    is still pending) a status narrated earlier is still there after the
    recomputation; the engine is not reached on this path. *)
Lemma absent_side_keeps_stale_status :
  let r := mkRender false (Some "hello world")
             (Some (mkLiveFileData None None true false)) true in
  let st := mkHookState (Some (mkDiffSummary 6 0))
              (Some (mkStatus "Document has 6 insertions." changes)) in
  fileContent r = None
  /\ diffSummary (settle st (@diffEffect prefixEngine r)) = None
  /\ status (settle st (@diffEffect prefixEngine r))
     = Some (mkStatus "Document has 6 insertions." changes)
  /\ status (settle st (@diffEffect prefixEngine r)) <> None.
Proof.
  cbv zeta; repeat split; discriminate.
Qed.

(** What the recomputation does on two identical texts. *)
Lemma diffEffect_identical {engine : DiffEngine} (text : string) (mobile : bool)
    (err : option string) (loading saving valid : bool) :
  calls (diffEffect (comparing text text mobile err loading saving valid))
  = [SetDiffSummary (Some (mkDiffSummary 0 0));
     SetStatus (Some (mkStatus (if mobile then "Identical to File."
                                else "The File is identical to this Document.")
                               info))].
Proof.
  unfold comparing, diffEffect.
  cbn [fileContent fileData content bufferText isMobile].
  rewrite String.eqb_refl; reflexivity.
Qed.

(** C4. When file content and buffer text are the same string, the
    recomputation sets the summary to zero insertions and zero deletions and
    an info status saying the two are identical, and never reaches the diff
    engine: [calculateDiffStats] is not called. *)
Theorem identical_texts_short_circuit {engine : DiffEngine}
    (text : string) (mobile : bool) (err : option string)
    (loading saving valid : bool) (st : HookState) :
  let r := comparing text text mobile err loading saving valid in
  settle st (diffEffect r)
  = mkHookState (Some (mkDiffSummary 0 0))
      (Some (mkStatus (if mobile then "Identical to File."
                       else "The File is identical to this Document.") info))
  /\ diffInvocations (diffEffect r) = 0
  /\ calls (diffEffect r)
     = [SetDiffSummary (Some (mkDiffSummary 0 0));
        SetStatus (Some (mkStatus (if mobile then "Identical to File."
                                   else "The File is identical to this Document.")
                                  info))].
Proof.
  intros r; unfold settle, diffInvocations, r.
  rewrite diffEffect_identical; repeat split.
Qed.

(** What the recomputation does on two different texts. *)
Lemma diffEffect_unequal {engine : DiffEngine} (fc bt : string) (mobile : bool)
    (err : option string) (loading saving valid : bool) (st : HookState) :
  fc <> bt ->
  let r := comparing fc bt mobile err loading saving valid in
  let summary := value (calculateDiffStats fc bt) in
  diffSummary (settle st (diffEffect r)) = Some summary
  /\ narrated summary (status (settle st (diffEffect r)))
  /\ diffInvocations (diffEffect r) = 2.
Proof.
  intros Hne r summary; unfold r, comparing, diffEffect.
  cbn [fileContent fileData content bufferText isMobile].
  destruct (String.eqb_spec fc bt) as [Heq|_]; [contradiction|].
  subst summary; unfold calculateDiffStats, narrated, truthy_nat.
  cbn [bind call ret value fst].
  set (summary := sumDiffs _).
  destruct (Nat.eqb_spec (insertions summary) 0) as [Hi|Hi];
    destruct (Nat.eqb_spec (deletions summary) 0) as [Hd|Hd];
    cbn; repeat split; intros; try reflexivity; contradiction.
Qed.

(** C5. For two different texts the status follows the computed summary:
    insertions and deletions both nonzero give "Document has N insertions and
    M deletions." (changes); insertions only, "Document has N insertions."
    (changes); deletions only, "Document has N deletions." (changes); both
    zero, "No changes." (info). *)
Theorem unequal_texts_status_priority {engine : DiffEngine}
    (fc bt : string) (mobile : bool) (err : option string)
    (loading saving valid : bool) (st : HookState) :
  fc <> bt ->
  let r := comparing fc bt mobile err loading saving valid in
  let summary := value (calculateDiffStats fc bt) in
  let n := insertions summary in
  let m := deletions summary in
  let s := status (settle st (diffEffect r)) in
  diffSummary (settle st (diffEffect r)) = Some summary
  /\ (n <> 0 -> m <> 0 ->
      s = Some (mkStatus ("Document has " ++ string_of_nat n ++ " insertions and "
                          ++ string_of_nat m ++ " deletions.") changes))
  /\ (n <> 0 -> m = 0 ->
      s = Some (mkStatus ("Document has " ++ string_of_nat n ++ " insertions.")
                         changes))
  /\ (n = 0 -> m <> 0 ->
      s = Some (mkStatus ("Document has " ++ string_of_nat m ++ " deletions.")
                         changes))
  /\ (n = 0 -> m = 0 -> s = Some (mkStatus "No changes." info)).
Proof.
  intros Hne r summary n m s.
  destruct (diffEffect_unequal mobile err loading saving valid st Hne)
    as (Hsum & Hnarr & _).
  split; [exact Hsum | exact Hnarr].
Qed.

Lemma unequal_texts_status_priority_witness :
  "abc" <> "xbcd"
  /\ status (settle (mkHookState None None)
              (@diffEffect prefixEngine
                 (comparing "abc" "xbcd" false None false false true)))
     = Some (mkStatus "Document has 4 insertions and 3 deletions." changes).
Proof.
  split; [discriminate|].
  apply (@unequal_texts_status_priority prefixEngine "abc" "xbcd" false None
           false false true (mkHookState None None));
    cbn; discriminate.
Defined.

(** C6. File content "hello" against buffer text "hello world": the diff
    package strips the common prefix "hello" and reports what is left of the
    buffer, " world", as one inserted span, which neither the merge nor the
    efficiency clean-up touches; the recomputation therefore yields the
    summary of 6 insertions and 0 deletions and the status "Document has 6
    insertions." of kind changes. *)
Theorem hello_world_six_insertions (rest : DmpRest)
    (mobile : bool) (err : option string) (loading saving valid : bool)
    (st : HookState) :
  let engine := dmpEngine rest in
  let r := comparing "hello" "hello world" mobile err loading saving valid in
  cleanupEfficiency (makeDiff "hello" "hello world" diffOptions) 4
  = [(DIFF_EQUAL, "hello"); (DIFF_INSERT, " world")]
  /\ value (calculateDiffStats "hello" "hello world") = mkDiffSummary 6 0
  /\ settle st (diffEffect r)
     = mkHookState (Some (mkDiffSummary 6 0))
         (Some (mkStatus "Document has 6 insertions." changes)).
Proof.
  intros engine r.
  assert (Hscript : cleanupEfficiency (makeDiff "hello" "hello world" diffOptions) 4
                    = [(DIFF_EQUAL, "hello"); (DIFF_INSERT, " world")])
    by reflexivity.
  assert (Hsum : value (calculateDiffStats "hello" "hello world") = mkDiffSummary 6 0).
  { rewrite value_calculateDiffStats, Hscript; reflexivity. }
  split; [exact Hscript | split; [exact Hsum|]].
  assert (Hne : "hello" <> "hello world") by discriminate.
  destruct (diffEffect_unequal mobile err loading saving valid st Hne)
    as (Hd & (_ & Hins & _) & _).
  fold r in Hd, Hins; rewrite Hsum in Hd, Hins.
  specialize (Hins ltac:(discriminate) eq_refl).
  destruct (settle st (diffEffect r)) as [d s0]; cbn in Hd, Hins; subst; reflexivity.
Qed.

(** ** The error narration *)

Lemma errorEffect_sets (r : Render) (text : string) (st : HookState) :
  fileErrorText r = Some text -> text <> "" ->
  settle st (errorEffect r) = mkHookState (diffSummary st) (Some (mkStatus text error)).
Proof.
  intros Htext Hne; unfold errorEffect; rewrite Htext; cbn [truthy_text].
  destruct (String.eqb_spec text "") as [Heq|_]; [contradiction|]. reflexivity.
Qed.

(** C3 (as amended). After a render in which the session's error text is
    nonempty and differs from the one of the previous render (or after the
    first render), the status is that text with kind error, whatever the
    divergence effect narrated in the same pass. After a render in which the
    error text is the one of the previous render, the error effect is silent:
    the state is what the divergence effect, if it runs, leaves. *)
Theorem error_overrides_when_it_changes {engine : DiffEngine}
    (prev : option Render) (cur : Render) (st : HookState) :
  (forall text,
     fileErrorText cur = Some text ->
     text <> "" ->
     effectRuns prev (fun p => errorDepsChanged p cur) = true ->
     status (settle st (runEffects prev cur)) = Some (mkStatus text error))
  /\ (effectRuns prev (fun p => errorDepsChanged p cur) = false ->
      settle st (runEffects prev cur)
      = settle st (when (effectRuns prev (fun p => diffDepsChanged p cur))
                        (diffEffect cur))).
Proof.
  unfold runEffects; split.
  - intros text Htext Hne Hruns.
    rewrite settle_bind, Hruns; cbn [when].
    rewrite (errorEffect_sets cur _ Htext Hne); reflexivity.
  - intros Hsilent; rewrite settle_bind, Hsilent; reflexivity.
Qed.

Lemma error_overrides_when_it_changes_witness :
  let prev := comparing "hello" "hello world" false None true false true in
  let cur := comparing "hello" "hello" false (Some "Read failed") false false true in
  status (settle (mkHookState None None) (@runEffects prefixEngine (Some prev) cur))
  = Some (mkStatus "Read failed" error)
  /\ settle (mkHookState None None) (@runEffects prefixEngine (Some cur) cur)
     = mkHookState None None.
Proof.
  intros prev cur; split.
  - apply (@error_overrides_when_it_changes prefixEngine (Some prev) cur
             (mkHookState None None));
      [reflexivity | discriminate | reflexivity].
  - rewrite (proj2 (@error_overrides_when_it_changes prefixEngine (Some cur) cur
                      (mkHookState None None)) eq_refl).
    reflexivity.
Defined.

(** C3, as stated, fails: the session still reports "Read failed" while the
    buffer is edited back to the file's text; only the divergence effect
    runs, and its "identical" narration replaces the error on display. *)
Lemma error_narration_is_overwritten :
  let prev := comparing "hello" "hello world" false (Some "Read failed") false false true in
  let cur := comparing "hello" "hello" false (Some "Read failed") false false true in
  let st := mkHookState (Some (mkDiffSummary 6 0)) (Some (mkStatus "Read failed" error)) in
  fileErrorText cur = Some "Read failed"
  /\ status (settle st (@runEffects prefixEngine (Some prev) cur))
     = Some (mkStatus "The File is identical to this Document." info)
  /\ status (settle st (@runEffects prefixEngine (Some prev) cur))
     <> Some (mkStatus "Read failed" error).
Proof.
  cbv zeta; repeat split; discriminate.
Qed.

(** ** Reload *)

(** Every invocation of the reload callback ends in one call of the
    session's [reloadFileContent], whatever the render. *)
Lemma reload_always_delegates (r : Render) (id : option LiveFileId) :
  reloadInvocations (_handleReloadFileContent r id) = 1
  /\ exists before, calls (_handleReloadFileContent r id)
                    = before ++ [ReloadFileContent id].
Proof.
  unfold _handleReloadFileContent.
  destruct (isLoadingFile r), (fileHasContent r); cbn; split; try reflexivity.
  - exists [SetStatus (Some alreadyLoading)]; reflexivity.
  - exists [SetStatus (Some alreadyLoading); SetStatus (Some readingFile)]; reflexivity.
  - exists []; reflexivity.
  - exists [SetStatus (Some readingFile)]; reflexivity.
Qed.

(** C1 (as amended). While a load is in flight, the reload callback sets the
    "Already Loading file..." info status (replaced at once by "Reading
    file..." when no content has been loaded yet) and then calls the
    session's [reloadFileContent] all the same, once per invocation: the
    callback itself suppresses nothing, and with the invocation that started
    the load there are two such calls. *)
Theorem reload_while_loading (r : Render) (id : option LiveFileId) (st : HookState) :
  isLoadingFile r = true ->
  calls (_handleReloadFileContent r id)
  = SetStatus (Some alreadyLoading)
    :: (if fileHasContent r then [] else [SetStatus (Some readingFile)])
    ++ [ReloadFileContent id]
  /\ status (settle st (_handleReloadFileContent r id))
     = Some (if fileHasContent r then alreadyLoading else readingFile)
  /\ reloadInvocations (_handleReloadFileContent r id) = 1
  /\ (forall first id1,
        reloadInvocations
          (_handleReloadFileContent first id1 ;; _handleReloadFileContent r id)
        = 2).
Proof.
  intros Hload; split; [|split; [|split]].
  - unfold _handleReloadFileContent; rewrite Hload.
    destruct (fileHasContent r); reflexivity.
  - unfold _handleReloadFileContent; rewrite Hload.
    destruct (fileHasContent r); reflexivity.
  - apply reload_always_delegates.
  - intros first id1; rewrite reloadInvocations_bind.
    rewrite (proj1 (reload_always_delegates first id1)).
    rewrite (proj1 (reload_always_delegates r id)); reflexivity.
Qed.

Lemma reload_while_loading_witness :
  let r := comparing "hello" "hello world" false None true false true in
  status (settle (mkHookState None None) (_handleReloadFileContent r None))
  = Some alreadyLoading
  /\ reloadInvocations (_handleReloadFileContent r None) = 1.
Proof.
  intros r.
  destruct (@reload_while_loading r None (mkHookState None None) eq_refl)
    as (_ & Hstatus & Hcount & _).
  split; [exact Hstatus | exact Hcount].
Defined.

(** C1, as stated, fails: a reload from a render with no load in flight,
    followed by a reload from a render in which that load is in flight,
    makes two calls of [reloadFileContent], not one. *)
Lemma reload_twice_reads_twice :
  let idle := comparing "hello" "hello world" false None false false true in
  let busy := comparing "hello" "hello world" false None true false true in
  isLoadingFile busy = true
  /\ calls (_handleReloadFileContent busy None)
     = [SetStatus (Some alreadyLoading); ReloadFileContent None]
  /\ reloadInvocations
       (_handleReloadFileContent idle None ;; _handleReloadFileContent busy None)
     = 2
  /\ reloadInvocations
       (_handleReloadFileContent idle None ;; _handleReloadFileContent busy None)
     <> 1.
Proof.
  cbv zeta; repeat split; discriminate.
Qed.

(** ** Identical texts and the summarizer *)





(** ** Refresh on window focus *)

(** C9. When the window becomes focused, the listener invokes the reload
    callback (on the hook's own identifier: no argument is passed) exactly
    when the pairing is valid and file content has been loaded; with an
    invalid pairing it makes no call at all, and neither does it when the
    window loses focus. *)
Theorem focus_reloads_iff_paired_with_content (r : Render) :
  calls (focusListener r true)
  = (if isPairingValid r && fileHasContent r
     then calls (_handleReloadFileContent r None) else [])
  /\ reloadInvocations (focusListener r true)
     = (if isPairingValid r && fileHasContent r then 1 else 0)
  /\ existsb isReloadCall (calls (focusListener r true))
     = isPairingValid r && fileHasContent r
  /\ (forall mobile buffer data,
        calls (focusListener (mkRender mobile buffer data false) true) = [])
  /\ calls (focusListener r false) = [].
Proof.
  unfold focusListener, shallUpdateOnRefocus; cbn [andb].
  destruct (isPairingValid r) eqn:Hvalid, (fileHasContent r) eqn:Hcontent;
    cbn [andb when]; repeat split;
    unfold _handleReloadFileContent; rewrite ?Hcontent;
    destruct (isLoadingFile r); reflexivity.
Qed.

(** ** The pairing failure message *)

(** C10. In the [catch] clause of the pairing callback the condition of the
    conditional is the whole disjunction: a thrown value with a truthy
    [message] is interpolated itself (through its string conversion), not
    its [message]; so is a thrown string; "Unknown error" is interpolated
    only for a value that is not a string and has no truthy [message]. *)
Theorem pairing_error_interpolates_thrown_value (err : JsValue) :
  (truthy (optMember err "message") = true ->
   pairErrorStatus err
   = mkStatus ("Error pairing the file: " ++ toString err) error)
  /\ (typeof err = "string" ->
      pairErrorStatus err
      = mkStatus ("Error pairing the file: " ++ toString err) error)
  /\ (truthy (optMember err "message") = false -> typeof err <> "string" ->
      pairErrorStatus err = mkStatus "Error pairing the file: Unknown error" error)
  /\ (forall r fsfHandle reloadThrown,
        calls (handlePairNewFSFHandle r fsfHandle (inl err) reloadThrown)
        = [LiveFileCreateOrThrow fsfHandle; SetStatus (Some (pairErrorStatus err))]).
Proof.
  unfold pairErrorStatus, pairErrorOperand, jsOr.
  split; [|split; [|split]].
  - intros Hmsg; rewrite Hmsg, Hmsg; reflexivity.
  - intros Hstr; rewrite Hstr; cbn [String.eqb].
    destruct (truthy (optMember err "message")) eqn:Hmsg.
    + rewrite Hmsg; reflexivity.
    + destruct err; try discriminate Hstr; reflexivity.
  - intros Hmsg Hstr; rewrite Hmsg.
    destruct (String.eqb_spec (typeof err) "string") as [Heq|_]; [contradiction|].
    reflexivity.
  - reflexivity.
Qed.

Lemma pairing_error_interpolates_thrown_value_witness :
  optMember (mkError "Error" "boom") "message" = JsString "boom"
  /\ pairErrorStatus (mkError "Error" "boom")
     = mkStatus "Error pairing the file: Error: boom" error
  /\ pairErrorStatus (JsString "denied")
     = mkStatus "Error pairing the file: denied" error
  /\ pairErrorStatus JsUndefined
     = mkStatus "Error pairing the file: Unknown error" error.
Proof.
  split; [reflexivity|].
  destruct (pairing_error_interpolates_thrown_value (mkError "Error" "boom"))
    as (Hmsg & _).
  destruct (pairing_error_interpolates_thrown_value (JsString "denied"))
    as (_ & Hstr & _).
  destruct (pairing_error_interpolates_thrown_value JsUndefined)
    as (_ & _ & Hfallback & _).
  split; [exact (Hmsg eq_refl)|].
  split; [exact (Hstr eq_refl)|].
  apply Hfallback; [reflexivity | discriminate].
Defined.

(** * Further properties of the hook *)

(** ** The summarizer *)

Lemma sumDiffs_tagged (diffs : list Diff) :
  sumDiffs diffs
  = mkDiffSummary (taggedLength 1 diffs) (taggedLength (-1) diffs).
Proof.
  induction diffs as [|[op span] rest IH]; [reflexivity|].
  rewrite sumDiffs_cons, IH; unfold taggedLength, countDiff.
  cbn [filter fst snd insertions deletions].
  destruct (Z.eqb_spec op 1) as [->|H1]; [reflexivity|].
  destruct (Z.eqb_spec op (-1)) as [->|H2]; reflexivity.
Qed.

(** X1. The counting rule of [calculateDiffStats]: the insertions are the
    total length of the spans tagged 1 in the cleaned-up script, the deletions
    the total length of the spans tagged -1; spans with any other tag count
    for nothing. *)
Theorem calculateDiffStats_counts_tagged_spans {engine : DiffEngine}
    (fromText toText : string) :
  let script := cleanupEfficiency (makeDiff fromText toText diffOptions) 4 in
  value (calculateDiffStats fromText toText)
  = mkDiffSummary (taggedLength 1 script) (taggedLength (-1) script).
Proof.
  intros script; rewrite value_calculateDiffStats; apply sumDiffs_tagged.
Qed.

(** X3. The counts do not depend on the order of the spans: two scripts that
    are permutations of each other have the same summary. *)
Theorem sumDiffs_order_irrelevant (script1 script2 : list Diff) :
  Permutation script1 script2 -> sumDiffs script1 = sumDiffs script2.
Proof.
  induction 1 as [|d l1 l2 _ IH|d1 d2 l|l1 l2 l3 _ IH1 _ IH2].
  - reflexivity.
  - rewrite !sumDiffs_cons, IH; reflexivity.
  - rewrite !sumDiffs_cons; cbn [insertions deletions]; f_equal; lia.
  - congruence.
Qed.

Lemma sumDiffs_order_irrelevant_witness :
  sumDiffs [(1%Z, "ab"); ((-1)%Z, "c"); (0%Z, "keep")]
  = sumDiffs [(0%Z, "keep"); ((-1)%Z, "c"); (1%Z, "ab")].
Proof.
  apply sumDiffs_order_irrelevant.
  apply perm_trans with [((-1)%Z, "c"); (1%Z, "ab"); (0%Z, "keep")].
  - apply perm_swap.
  - apply perm_trans with [((-1)%Z, "c"); (0%Z, "keep"); (1%Z, "ab")].
    + apply perm_skip, perm_swap.
    + apply perm_swap.
Defined.

Lemma length_append (a b : string) :
  String.length (a ++ b) = String.length a + String.length b.
Proof. induction a as [|c a IH]; cbn; [reflexivity | rewrite IH; reflexivity]. Qed.

Lemma script_length_balance (diffs : list Diff) :
  String.length (textBefore diffs) + insertions (sumDiffs diffs)
  = String.length (textAfter diffs) + deletions (sumDiffs diffs).
Proof.
  induction diffs as [|[op span] rest IH]; [reflexivity|].
  rewrite sumDiffs_cons; unfold countDiff; cbn [textBefore textAfter].
  destruct (Z.eqb_spec op 1) as [->|H1]; cbn [Z.eqb insertions deletions].
  - rewrite length_append; cbn; lia.
  - destruct (Z.eqb_spec op (-1)) as [->|H2]; cbn [insertions deletions];
      rewrite ?length_append; lia.
Qed.

(** X4. Whenever the engine's script is an edit script from the first text
    to the second, the two counts balance the lengths: the length of the old
    text plus the insertions is the length of the new text plus the
    deletions. *)
Theorem calculateDiffStats_balances_lengths {engine : DiffEngine}
    (fromText toText : string) :
  let script := cleanupEfficiency (makeDiff fromText toText diffOptions) 4 in
  textBefore script = fromText ->
  textAfter script = toText ->
  String.length fromText + insertions (value (calculateDiffStats fromText toText))
  = String.length toText + deletions (value (calculateDiffStats fromText toText)).
Proof.
  intros script Hfrom Hto; rewrite value_calculateDiffStats; fold script.
  rewrite <- Hfrom at 1; rewrite <- Hto at 1; apply script_length_balance.
Qed.

Lemma calculateDiffStats_balances_lengths_witness :
  3 + insertions (value (@calculateDiffStats prefixEngine "abc" "abxyz"))
  = 5 + deletions (value (@calculateDiffStats prefixEngine "abc" "abxyz")).
Proof.
  apply (@calculateDiffStats_balances_lengths prefixEngine "abc" "abxyz");
    reflexivity.
Defined.

(** ** The recomputation and what the box shows *)

Lemma length_zero_empty (s : string) : String.length s = 0 -> s = "".
Proof. destruct s; [reflexivity | discriminate]. Qed.

(** A script that counts nothing leaves the text as it is. *)
Lemma sumDiffs_zero_same_text (diffs : list Diff) :
  sumDiffs diffs = mkDiffSummary 0 0 -> textBefore diffs = textAfter diffs.
Proof.
  induction diffs as [|[op span] rest IH]; [reflexivity|].
  rewrite sumDiffs_cons; unfold countDiff; cbn [textBefore textAfter].
  destruct (Z.eqb_spec op 1) as [->|H1]; cbn [Z.eqb insertions deletions].
  - intros H; injection H as Hi Hd.
    assert (Hspan : span = "") by (apply length_zero_empty; lia).
    subst span; cbn. apply IH.
    destruct (sumDiffs rest) as [i d]; cbn in *; f_equal; lia.
  - destruct (Z.eqb_spec op (-1)) as [->|H2]; cbn [insertions deletions].
    + intros H; injection H as Hi Hd.
      assert (Hspan : span = "") by (apply length_zero_empty; lia).
      subst span; cbn. apply IH.
      destruct (sumDiffs rest) as [i d]; cbn in *; f_equal; lia.
    + intros H; f_equal; apply IH.
      destruct (sumDiffs rest) as [i d]; cbn in *; exact H.
Qed.

(** After a recomputation on two present texts the status is of kind changes
    when the summary counts something, of kind info otherwise. *)
Lemma diffEffect_kind {engine : DiffEngine} (fc bt : string) (mobile : bool)
    (err : option string) (loading saving valid : bool) (st : HookState) :
  let st' := settle st (diffEffect (comparing fc bt mobile err loading saving valid)) in
  kindOf (status st') = Some (if fileIsDifferent st' then changes else info).
Proof.
  unfold comparing, diffEffect.
  cbn [fileContent fileData content bufferText isMobile].
  destruct (String.eqb fc bt); [reflexivity|].
  unfold calculateDiffStats, fileIsDifferent, truthy_nat.
  cbn [bind call ret value fst].
  set (summary := sumDiffs _).
  destruct (Nat.eqb (insertions summary) 0) eqn:Hi;
    destruct (Nat.eqb (deletions summary) 0) eqn:Hd;
    cbn; rewrite ?Hi, ?Hd; reflexivity.
Qed.

(** X5. With an engine whose script is an edit script from the file content
    to the buffer text, two different texts are never narrated as "No
    changes.": the status is of kind changes and the summary counts at least
    one character. *)
Theorem faithful_script_never_no_changes {engine : DiffEngine}
    (fc bt : string) (mobile : bool) (err : option string)
    (loading saving valid : bool) (st : HookState) :
  let script := cleanupEfficiency (makeDiff fc bt diffOptions) 4 in
  let st' := settle st (diffEffect (comparing fc bt mobile err loading saving valid)) in
  fc <> bt ->
  textBefore script = fc ->
  textAfter script = bt ->
  kindOf (status st') = Some changes
  /\ fileIsDifferent st' = true
  /\ status st' <> Some (mkStatus "No changes." info).
Proof.
  intros script st' Hne Hfrom Hto.
  assert (Hdiff : fileIsDifferent st' = true).
  { destruct (diffEffect_unequal mobile err loading saving valid st Hne)
      as (Hsum & _ & _).
    fold st' in Hsum; unfold fileIsDifferent; rewrite Hsum.
    rewrite value_calculateDiffStats; fold script.
    destruct (sumDiffs script) as [i d] eqn:Hs; unfold truthy_nat; cbn.
    destruct i, d; try reflexivity.
    exfalso; apply Hne; rewrite <- Hfrom, <- Hto.
    apply sumDiffs_zero_same_text; exact Hs. }
  pose proof (diffEffect_kind fc bt mobile err loading saving valid st) as Hkind.
  cbv zeta in Hkind; fold st' in Hkind; rewrite Hdiff in Hkind.
  repeat split; try assumption.
  intros Hno; rewrite Hno in Hkind; discriminate.
Qed.

Lemma faithful_script_never_no_changes_witness :
  kindOf (status (settle (mkHookState None None)
                    (@diffEffect prefixEngine
                       (comparing "abc" "abxyz" false None false false true))))
  = Some changes.
Proof.
  apply (@faithful_script_never_no_changes prefixEngine "abc" "abxyz" false None
           false false true (mkHookState None None));
    [discriminate | reflexivity | reflexivity].
Defined.

(** X6. After a pass of the effects in which the recomputation runs on two
    present texts, the action box is shown and offers the buttons to load
    from the file and to save to it exactly when the summary counts
    something; the save button is disabled while a save is in flight, the
    load button never. If the error effect speaks in the same pass (it runs
    and the error text is not empty) the box is in warning color with the
    warning icon and the status is of kind error; otherwise the box is
    neutral without the icon, and the buttons are there exactly when the
    status is of kind changes. *)
Theorem box_offers_transfer_iff_changes {engine : DiffEngine}
    (prev : option Render) (fc bt : string) (mobile : bool) (err : option string)
    (loading saving valid : bool) (st : HookState) :
  let r := comparing fc bt mobile err loading saving valid in
  let st' := settle st (runEffects prev r) in
  effectRuns prev (fun p => diffDepsChanged p r) = true ->
  exists box,
    liveFileActionBox r st' = Some box
    /\ refreshButton box = valid
    /\ (loadButton box <> None <-> fileIsDifferent st' = true)
    /\ (saveButton box <> None <-> fileIsDifferent st' = true)
    /\ (forall b, loadButton box = Some b -> disabled b = false)
    /\ (forall b, saveButton box = Some b -> disabled b = saving)
    /\ (if effectRuns prev (fun p => errorDepsChanged p r) && truthy_text err
        then color box = Palette.warning /\ warningIcon box = true
             /\ kindOf (status st') = Some error
        else color box = Palette.neutral /\ warningIcon box = false
             /\ kindOf (status st')
                = Some (if fileIsDifferent st' then changes else info)).
Proof.
  intros r st' Hruns.
  pose proof (diffEffect_kind fc bt mobile err loading saving valid st) as Hkind.
  cbv zeta in Hkind; fold r in Hkind.
  assert (Hst' : st' = settle (settle st (diffEffect r))
                         (when (effectRuns prev (fun p => errorDepsChanged p r))
                               (errorEffect r))).
  { unfold st', runEffects; rewrite settle_bind, Hruns; reflexivity. }
  set (st1 := settle st (diffEffect r)) in *.
  assert (Herr : fileErrorText r = err) by reflexivity.
  assert (Hcases :
    (effectRuns prev (fun p => errorDepsChanged p r) && truthy_text err = true
     /\ exists text, st' = mkHookState (diffSummary st1) (Some (mkStatus text error)))
    \/ (effectRuns prev (fun p => errorDepsChanged p r) && truthy_text err = false
        /\ st' = st1)).
  { rewrite Hst'; unfold errorEffect; rewrite Herr.
    destruct (effectRuns prev (fun p => errorDepsChanged p r)); cbn [when andb].
    - destruct err as [text|]; cbn [truthy_text].
      + destruct (String.eqb text ""); cbn [negb when];
          [right; split; reflexivity | left; split; [reflexivity|]].
        exists text; reflexivity.
      + right; split; reflexivity.
    - right; split; reflexivity. }
  destruct Hcases as [(Hsp & text & Heq) | (Hsp & Heq)]; rewrite Hsp, Heq.
  - unfold liveFileActionBox, fileIsDifferent; cbn.
    eexists; split; [reflexivity|].
    cbn [color warningIcon refreshButton loadButton saveButton].
    destruct (match diffSummary st1 with
              | Some d => truthy_nat (deletions d) || truthy_nat (insertions d)
              | None => false
              end); repeat split;
      try reflexivity; try discriminate;
      try (intros H; exfalso; apply H; reflexivity);
      try (intros b Hb; injection Hb as <-; reflexivity).
  - unfold liveFileActionBox, statusColor, isErrorStatus, kindOf in *.
    destruct (status st1) as [s1|]; [|discriminate Hkind].
    cbn [option_map] in *; injection Hkind as Hkind.
    eexists; split; [reflexivity|].
    cbn [color warningIcon refreshButton loadButton saveButton].
    rewrite Hkind.
    destruct (fileIsDifferent st1); repeat split;
      try reflexivity; try discriminate;
      try (intros H; exfalso; apply H; reflexivity);
      try (intros b Hb; injection Hb as <-; reflexivity).
Qed.

Lemma box_offers_transfer_iff_changes_witness :
  let r := comparing "abc" "abxyz" false (Some "Read failed") false true true in
  let st' := settle (mkHookState None None) (@runEffects prefixEngine None r) in
  exists box,
    liveFileActionBox r st' = Some box
    /\ color box = Palette.warning
    /\ loadButton box <> None
    /\ kindOf (status st') = Some error.
Proof.
  intros r st'.
  destruct (@box_offers_transfer_iff_changes prefixEngine None "abc" "abxyz" false
              (Some "Read failed") false true true (mkHookState None None) eq_refl)
    as (box & Hbox & _ & Hload & _ & _ & _ & Hcolor & _ & Hkind).
  exists box; repeat split; try assumption.
  apply Hload; reflexivity.
Defined.

(** On two present texts the recomputation writes both slots of the state. *)
Lemma diffEffect_present {engine : DiffEngine} (r : Render) (fc bt : string) :
  fileContent r = Some fc -> bufferText r = Some bt ->
  exists d s, forall st, settle st (diffEffect r) = mkHookState (Some d) (Some s).
Proof.
  intros Hfc Hbt; unfold diffEffect; rewrite Hfc, Hbt.
  destruct (String.eqb fc bt); [do 2 eexists; intros st; reflexivity|].
  unfold calculateDiffStats; cbn [bind call ret value fst].
  set (summary := sumDiffs _).
  destruct (truthy_nat (insertions summary)), (truthy_nat (deletions summary));
    do 2 eexists; intros st; reflexivity.
Qed.

(** X7. The recomputation keeps the summary in step with its inputs: after
    it the summary is present exactly when both the file content and the
    buffer text are, and neither the summary nor, with both present, the
    status depends on the state before. *)
Theorem recomputation_is_memoryless {engine : DiffEngine}
    (r : Render) (st1 st2 : HookState) :
  (diffSummary (settle st1 (diffEffect r)) <> None
   <-> fileContent r <> None /\ bufferText r <> None)
  /\ diffSummary (settle st1 (diffEffect r)) = diffSummary (settle st2 (diffEffect r))
  /\ (fileContent r <> None -> bufferText r <> None ->
      settle st1 (diffEffect r) = settle st2 (diffEffect r)).
Proof.
  destruct (fileContent r) as [fc|] eqn:Hfc; [destruct (bufferText r) as [bt|] eqn:Hbt|].
  - destruct (diffEffect_present r Hfc Hbt) as (d & s & Hst).
    rewrite (Hst st1), (Hst st2); cbn.
    repeat split; discriminate.
  - unfold diffEffect; rewrite Hfc, Hbt; cbn.
    repeat split; try discriminate; try tauto; try (intros [H1 H2]; congruence).
  - unfold diffEffect; rewrite Hfc; cbn.
    repeat split; try discriminate; try tauto; try (intros [H1 H2]; congruence).
Qed.

Lemma recomputation_is_memoryless_witness :
  let r := comparing "abc" "abxyz" false None false false true in
  settle (mkHookState None (Some (mkStatus "Read failed" error))) (@diffEffect prefixEngine r)
  = settle (mkHookState None None) (@diffEffect prefixEngine r).
Proof.
  intros r.
  apply (@recomputation_is_memoryless prefixEngine r); discriminate.
Defined.

(** ** Scheduling of the two effects *)

Lemma text_eqb_refl (a : option string) : text_eqb a a = true.
Proof. destruct a; [apply String.eqb_refl | reflexivity]. Qed.

Lemma text_eqb_eq (a b : option string) : a = b -> text_eqb a b = true.
Proof. intros <-; apply text_eqb_refl. Qed.

(** The calls of the divergence effect come in three shapes. *)
Lemma diffEffect_calls_shape {engine : DiffEngine} (r : Render) :
  exists d s,
    calls (diffEffect r) = [SetDiffSummary None]
    \/ calls (diffEffect r) = [SetDiffSummary d; SetStatus s]
    \/ exists fc bt,
         calls (diffEffect r)
         = [CallMakeDiff fc bt diffOptions;
            CallCleanupEfficiency (makeDiff fc bt diffOptions) 4;
            SetDiffSummary d; SetStatus s].
Proof.
  unfold diffEffect.
  destruct (fileContent r) as [fc|]; [destruct (bufferText r) as [bt|]|];
    try (exists None, None; left; reflexivity).
  destruct (String.eqb fc bt); [do 2 eexists; right; left; reflexivity|].
  unfold calculateDiffStats; cbn [bind call ret value fst].
  set (summary := sumDiffs _).
  destruct (truthy_nat (insertions summary)), (truthy_nat (deletions summary));
    do 2 eexists; right; right; exists fc, bt; reflexivity.
Qed.

Lemma errorEffect_calls_shape (r : Render) :
  calls (errorEffect r) = []
  \/ exists text, calls (errorEffect r) = [SetStatus (Some (mkStatus text error))].
Proof.
  unfold errorEffect.
  destruct (fileErrorText r) as [text|]; [|left; reflexivity].
  cbn [truthy_text]; destruct (String.eqb text ""); [left; reflexivity|].
  right; exists text; reflexivity.
Qed.

(** X8. A render that changes none of buffer text, file content, layout and
    error text runs no effect: the state, and with it a status set by a
    callback, stays as it is whatever happens to the loading and saving flags
    and to the validity of the pairing. *)
Theorem unchanged_inputs_run_no_effect {engine : DiffEngine}
    (prev cur : Render) (st : HookState) :
  bufferText prev = bufferText cur ->
  fileContent prev = fileContent cur ->
  isMobile prev = isMobile cur ->
  fileErrorText prev = fileErrorText cur ->
  calls (runEffects (Some prev) cur) = []
  /\ settle st (runEffects (Some prev) cur) = st.
Proof.
  intros Hb Hc Hm He.
  assert (Hcalls : calls (runEffects (Some prev) cur) = []).
  { unfold runEffects, effectRuns, diffDepsChanged, errorDepsChanged.
    rewrite (text_eqb_eq Hb), (text_eqb_eq Hc), (text_eqb_eq He), Hm.
    rewrite Bool.eqb_reflx; reflexivity. }
  split; [exact Hcalls | unfold settle; rewrite Hcalls; reflexivity].
Qed.

Lemma unchanged_inputs_run_no_effect_witness :
  let busy := comparing "hello" "hello world" false None true false true in
  let idle := comparing "hello" "hello world" false None false false false in
  let st := mkHookState (Some (mkDiffSummary 6 0)) (Some alreadyLoading) in
  settle st (@runEffects prefixEngine (Some busy) idle) = st.
Proof.
  intros busy idle st.
  apply (@unchanged_inputs_run_no_effect prefixEngine busy idle st); reflexivity.
Defined.

(** X9. The effects only narrate: whatever the two renders, every call they
    make is one of the hook's two setters or a call of the diff engine (no
    reload, save, close, pairing or buffer write), the engine is asked for
    at most one script and its clean-up, and at most two statuses are set. *)
Theorem effects_only_narrate {engine : DiffEngine}
    (prev : option Render) (cur : Render) :
  forallb isNarrationCall (calls (runEffects prev cur)) = true
  /\ diffInvocations (runEffects prev cur) <= 2
  /\ reloadInvocations (runEffects prev cur) = 0
  /\ List.length (statusesSet (calls (runEffects prev cur))) <= 2.
Proof.
  unfold runEffects, diffInvocations, reloadInvocations.
  rewrite calls_bind.
  destruct (effectRuns prev (fun p => diffDepsChanged p cur));
    destruct (effectRuns prev (fun p => errorDepsChanged p cur));
    cbn [when value fst];
    destruct (diffEffect_calls_shape cur) as (d & s & [Hd | [Hd | (fc & bt & Hd)]]);
    destruct (errorEffect_calls_shape cur) as [He | (text & He)];
    rewrite ?Hd, ?He; cbn; repeat split; lia.
Qed.

(** X10. Clearing the session error clears nothing on display: when the error
    text becomes absent or empty while buffer text, file content and layout
    stay the same, the effects make no call and the status, an error
    narrated before included, stays. *)
Theorem cleared_error_leaves_status {engine : DiffEngine}
    (prev cur : Render) (st : HookState) :
  bufferText prev = bufferText cur ->
  fileContent prev = fileContent cur ->
  isMobile prev = isMobile cur ->
  truthy_text (fileErrorText cur) = false ->
  calls (runEffects (Some prev) cur) = []
  /\ status (settle st (runEffects (Some prev) cur)) = status st.
Proof.
  intros Hb Hc Hm He.
  assert (Hcalls : calls (runEffects (Some prev) cur) = []).
  { unfold runEffects, effectRuns, diffDepsChanged.
    rewrite (text_eqb_eq Hb), (text_eqb_eq Hc), Hm, Bool.eqb_reflx.
    rewrite calls_bind; cbn [andb negb when calls ret snd app value fst].
    unfold errorEffect.
    destruct (fileErrorText cur) as [text|];
      [rewrite He|]; destruct (errorDepsChanged prev cur); reflexivity. }
  split; [exact Hcalls | unfold settle; rewrite Hcalls; reflexivity].
Qed.

Lemma cleared_error_leaves_status_witness :
  let failed := comparing "hello" "hello" false (Some "Read failed") false false true in
  let cleared := comparing "hello" "hello" false None false false true in
  let st := mkHookState (Some (mkDiffSummary 0 0)) (Some (mkStatus "Read failed" error)) in
  status (settle st (@runEffects prefixEngine (Some failed) cleared))
  = Some (mkStatus "Read failed" error).
Proof.
  intros failed cleared st.
  apply (@cleared_error_leaves_status prefixEngine failed cleared st); reflexivity.
Defined.

(** ** The callbacks *)

(** X11. Saving writes only through a valid pairing: the session's save is
    called exactly when the pairing is valid, once and with the buffer text
    of the render. Of the statuses the callback sets itself the last is the
    success one exactly when that save reports true, and an info one
    otherwise: it never narrates a failure. That is left to the error
    effect: after a save that reports false, a render in which the session's
    error text has changed to a non-empty text ends with that text as a
    status of kind error. The callback leaves the diff summary, hence the
    divergence on display, as it was, even after a successful save. *)
Theorem save_writes_iff_paired {engine : DiffEngine}
    (r : Render) (saved : bool) (st : HookState) :
  let m := handleSaveToDisk r saved in
  filter isSaveCall (calls m)
  = (if isPairingValid r then [SaveFileContent (bufferText r)] else [])
  /\ statusesSet (calls m)
     = (if isPairingValid r
        then Some (mkStatus "Saving to file..." info)
             :: (if saved then [Some (mkStatus "Content saved to file." success)]
                 else [])
        else [Some (mkStatus "No file paired. Please choose a file first." info)])
  /\ kindOf (status (settle st m))
     = Some (if isPairingValid r && saved then success else info)
  /\ diffSummary (settle st m) = diffSummary st
  /\ fileIsDifferent (settle st m) = fileIsDifferent st
  /\ forallb (fun c => isSaveCall c || isNarrationCall c) (calls m) = true
  /\ (forall (after : Render) (text : string),
        fileErrorText after = Some text ->
        text <> "" ->
        errorDepsChanged r after = true ->
        status (settle (settle st (handleSaveToDisk r false))
                  (runEffects (Some r) after))
        = Some (mkStatus text error)).
Proof.
  intros m; unfold m, handleSaveToDisk.
  split; [destruct (isPairingValid r), saved; reflexivity|].
  split; [destruct (isPairingValid r), saved; reflexivity|].
  split; [destruct (isPairingValid r), saved; reflexivity|].
  split; [destruct (isPairingValid r), saved; reflexivity|].
  split; [destruct (isPairingValid r), saved; reflexivity|].
  split; [destruct (isPairingValid r), saved; reflexivity|].
  intros after text Htext Hne Hchanged.
  unfold runEffects; rewrite settle_bind; cbn [effectRuns].
  rewrite Hchanged; cbn [when].
  rewrite (errorEffect_sets after _ Htext Hne); reflexivity.
Qed.

Lemma save_writes_iff_paired_witness :
  let r := comparing "hello" "hello world" false None false false true in
  let after := comparing "hello" "hello world" false (Some "Write failed") false false true in
  status (settle (settle (mkHookState (Some (mkDiffSummary 6 0)) None)
                    (handleSaveToDisk r false))
            (@runEffects prefixEngine (Some r) after))
  = Some (mkStatus "Write failed" error).
Proof.
  intros r after.
  apply (@save_writes_iff_paired prefixEngine r false
           (mkHookState (Some (mkDiffSummary 6 0)) None));
    [reflexivity | discriminate | reflexivity].
Defined.

(** X12. Loading from disk leaves no divergence:
    the callback hands the buffer's owner exactly the file content, or, with
    no content, only says so; once the owner has stored the text it was
    handed, the recomputation finds the two texts identical without asking
    the diff engine, and the box offers neither load nor save. *)
Theorem load_then_recompute_is_identical {engine : DiffEngine}
    (r : Render) (st : HookState) (text : string) :
  In (SetBufferText text) (calls (handleLoadFromDisk r)) ->
  let r' := withBufferText r text in
  let st' := settle st (diffEffect r') in
  fileContent r = Some text
  /\ calls (handleLoadFromDisk r) = [SetBufferText text]
  /\ diffSummary st' = Some (mkDiffSummary 0 0)
  /\ kindOf (status st') = Some info
  /\ fileIsDifferent st' = false
  /\ diffInvocations (diffEffect r') = 0.
Proof.
  intros Hin r' st'; unfold handleLoadFromDisk in *.
  destruct (fileContent r) as [fc|] eqn:Hfc.
  - destruct Hin as [Heq|[]]; injection Heq as ->.
    assert (Hcalls : calls (diffEffect r')
                     = [SetDiffSummary (Some (mkDiffSummary 0 0));
                        SetStatus (Some (mkStatus
                          (if isMobile r then "Identical to File."
                           else "The File is identical to this Document.") info))]).
    { unfold diffEffect, r', withBufferText, fileContent in *.
      cbn [fileData bufferText isMobile]; rewrite Hfc, String.eqb_refl; reflexivity. }
    unfold st', settle, diffInvocations; rewrite Hcalls.
    repeat split.
  - destruct Hin as [Heq|[]]; discriminate Heq.
Qed.

Lemma load_then_recompute_is_identical_witness :
  let r := comparing "hello" "hello world" false None false false true in
  diffSummary (settle (mkHookState (Some (mkDiffSummary 6 0)) None)
                 (@diffEffect prefixEngine (withBufferText r "hello")))
  = Some (mkDiffSummary 0 0).
Proof.
  intros r.
  apply (@load_then_recompute_is_identical prefixEngine r
           (mkHookState (Some (mkDiffSummary 6 0)) None) "hello").
  left; reflexivity.
Defined.

(** X13. Closing forgets everything the hook narrated: whatever the state
    before, the session's close is called first and the state ends with no
    summary and no status; the box then disappears as soon as the render has
    no file content, and until then shows no status line and no transfer
    button. *)
Theorem close_resets_state_and_box (r : Render) (st : HookState) (next : Render) :
  let st' := settle st (handleCloseFile r) in
  hd_error (calls (handleCloseFile r)) = Some CloseFileContent
  /\ st' = mkHookState None None
  /\ liveFileActionBox next st'
     = (if fileHasContent next
        then Some (mkActionBox Palette.neutral (isPairingValid next) false None None None)
        else None).
Proof.
  intros st'; unfold liveFileActionBox; cbn.
  destruct (fileHasContent next); repeat split.
Qed.

(** X14. Pairing in order: the store is asked first; if it throws, the
    fragment keeps its identifier, nothing is reloaded and the status is the
    pairing error; if it succeeds, the new identifier replaces the old one
    once and is then reloaded once, under that very identifier; a reload that
    rejects ends in the pairing error, one that does not leaves the state the
    reload callback alone would leave. *)
Theorem pairing_replaces_then_reloads (r : Render) (fsfHandle : FileSystemFileHandle)
    (created : JsValue + LiveFileId) (reloadThrown : option JsValue) (st : HookState) :
  let m := handlePairNewFSFHandle r fsfHandle created reloadThrown in
  hd_error (calls m) = Some (LiveFileCreateOrThrow fsfHandle)
  /\ filter isCreateCall (calls m) = [LiveFileCreateOrThrow fsfHandle]
  /\ match created with
     | inl err =>
       filter isReplaceCall (calls m) = []
       /\ filter isReloadCall (calls m) = []
       /\ settle st m = mkHookState (diffSummary st) (Some (pairErrorStatus err))
     | inr id =>
       filter (fun c => isReplaceCall c || isReloadCall c) (calls m)
       = [ReplaceLiveFileId id; ReloadFileContent (Some id)]
       /\ match reloadThrown with
          | Some err =>
            settle st m = mkHookState (diffSummary st) (Some (pairErrorStatus err))
          | None => settle st m = settle st (_handleReloadFileContent r (Some id))
          end
     end.
Proof.
  unfold handlePairNewFSFHandle, _handleReloadFileContent.
  destruct created as [err|id]; [repeat split|].
  destruct reloadThrown as [err|];
    destruct (isLoadingFile r), (fileHasContent r); repeat split.
Qed.

(** X15. The picker pairs only with a handle: the store is asked exactly
    when a file with a handle was picked; closing the picker makes no call
    and leaves the state alone; a file without a handle only sets an error
    status, which the box shows in warning color with the warning icon. *)
Theorem picker_pairs_only_with_handle (r : Render)
    (picked : option (option FileSystemFileHandle))
    (created : JsValue + LiveFileId) (reloadThrown : option JsValue)
    (st : HookState) (next : Render) :
  let m := handlePairNewFileWithPicker r picked created reloadThrown in
  filter isCreateCall (calls m)
  = match picked with
    | Some (Some handle) => [LiveFileCreateOrThrow handle]
    | _ => []
    end
  /\ match picked with
     | None => calls m = []
     | Some None =>
       calls m = [SetStatus (Some (mkStatus
                    "Browser does not support LiveFile operations." error))]
       /\ option_map color (liveFileActionBox next (settle st m)) = Some Palette.warning
       /\ option_map warningIcon (liveFileActionBox next (settle st m)) = Some true
     | Some (Some handle) =>
       m = handlePairNewFSFHandle r handle created reloadThrown
     end.
Proof.
  unfold handlePairNewFileWithPicker.
  destruct picked as [[handle|]|]; cbn zeta.
  - split; [|reflexivity].
    unfold handlePairNewFSFHandle, _handleReloadFileContent.
    destruct created as [err|id]; [reflexivity|].
    destruct reloadThrown, (isLoadingFile r), (fileHasContent r); reflexivity.
  - repeat split.
  - repeat split.
Qed.

(** X16. A refresh on focus is quiet: when the window gains focus the
    listener never sets the "Reading file..." status (it only fires with
    content loaded) and narrates "Already Loading file..." exactly when it
    fires while a load is in flight; otherwise it sets no status at all; it
    never touches the summary. *)
Theorem focus_refresh_is_quiet (r : Render) (focused : bool) (st : HookState) :
  statusesSet (calls (focusListener r focused))
  = (if focused && shallUpdateOnRefocus r && isLoadingFile r
     then [Some alreadyLoading] else [])
  /\ diffSummary (settle st (focusListener r focused)) = diffSummary st
  /\ status (settle st (focusListener r focused))
     = (if focused && shallUpdateOnRefocus r && isLoadingFile r
        then Some alreadyLoading else status st).
Proof.
  unfold focusListener, shallUpdateOnRefocus, _handleReloadFileContent.
  destruct focused, (isPairingValid r), (fileHasContent r), (isLoadingFile r);
    repeat split.
Qed.

(** X17. The diff engine is asked exactly when it must be: after a render
    the effects call it (once for the script, once for the clean-up) if the
    divergence effect runs and both texts are present and different, and not
    at all otherwise; a change of the error text or of the flags alone never
    reaches it, a change of layout alone does. *)
Theorem engine_asked_exactly_when_needed {engine : DiffEngine}
    (prev : option Render) (cur : Render) :
  diffInvocations (runEffects prev cur)
  = (if effectRuns prev (fun p => diffDepsChanged p cur) && textsDiffer cur
     then 2 else 0).
Proof.
  unfold runEffects, diffInvocations, textsDiffer; rewrite calls_bind.
  destruct (effectRuns prev (fun p => diffDepsChanged p cur));
    destruct (effectRuns prev (fun p => errorDepsChanged p cur));
    cbn [when value fst andb];
    destruct (errorEffect_calls_shape cur) as [He | (text & He)];
    rewrite ?He; cbn [calls ret snd app filter isDiffCall length];
    try reflexivity;
    rewrite ?app_nil_r; unfold diffEffect;
    (destruct (fileContent cur) as [fc|]; [destruct (bufferText cur) as [bt|]|];
     try reflexivity);
    (destruct (String.eqb fc bt); [reflexivity|]);
    unfold calculateDiffStats; cbn [bind call ret value fst];
    set (summary := sumDiffs _);
    destruct (truthy_nat (insertions summary)), (truthy_nat (deletions summary));
    reflexivity.
Qed.

(** ** ComposerTextAreaActions *)

Lemma length_mapIndexedFrom {A B} (f : A -> nat -> B) (start : nat) (l : list A) :
  List.length (mapIndexedFrom f start l) = List.length l.
Proof.
  revert start; induction l as [|x rest IH]; intros start; cbn;
    [reflexivity | rewrite IH; reflexivity].
Qed.

Lemma nth_error_mapIndexedFrom {A B} (f : A -> nat -> B) (start i : nat)
    (l : list A) (x : A) :
  nth_error l i = Some x ->
  nth_error (mapIndexedFrom f start l) i = Some (f x (start + i)).
Proof.
  revert start i; induction l as [|y rest IH]; intros start [|i] H;
    try discriminate; cbn in *.
  - injection H as ->; rewrite Nat.add_0_r; reflexivity.
  - rewrite (IH (S start) i H); f_equal; f_equal; lia.
Qed.

Lemma composer_box_layout (Item : Type) (items : list Item) (ps : list string)
    (tail : list (ComposerElement Item)) :
  let elements :=
    mapIndexed (fun item index => InReferenceToBubble index item) items
    ++ mapIndexed (fun candidate index => PromptSheet Item index candidate) ps
    ++ tail in
  List.length elements = List.length items + List.length ps + List.length tail
  /\ (forall i item, nth_error items i = Some item ->
        nth_error elements i = Some (InReferenceToBubble i item))
  /\ (forall i candidate, nth_error ps i = Some candidate ->
        nth_error elements (List.length items + i) = Some (PromptSheet Item i candidate))
  /\ (forall j, nth_error elements (List.length items + List.length ps + j)
                = nth_error tail j).
Proof.
  intros elements; unfold elements, mapIndexed; split; [|split; [|split]].
  - rewrite !length_app, !length_mapIndexedFrom; lia.
  - intros i item Hi.
    rewrite nth_error_app1
      by (rewrite length_mapIndexedFrom; apply nth_error_Some; congruence).
    rewrite (nth_error_mapIndexedFrom _ 0 _ _ Hi); reflexivity.
  - intros i candidate Hi.
    rewrite nth_error_app2 by (rewrite length_mapIndexedFrom; lia).
    rewrite length_mapIndexedFrom.
    replace (List.length items + i - List.length items) with i by lia.
    rewrite nth_error_app1
      by (rewrite length_mapIndexedFrom; apply nth_error_Some; congruence).
    rewrite (nth_error_mapIndexedFrom _ 0 _ _ Hi); reflexivity.
  - intros j.
    rewrite nth_error_app2 by (rewrite length_mapIndexedFrom; lia).
    rewrite length_mapIndexedFrom.
    rewrite nth_error_app2 by (rewrite length_mapIndexedFrom; lia).
    rewrite length_mapIndexedFrom.
    f_equal; lia.
Qed.

(** X18. What [ComposerTextAreaActions] puts in its box: nothing at all when
    there is no prompt, the panel is not visible and nothing is referred to,
    not even with [hasData] set, which alone would show the button;
    otherwise one bubble per referred item, then one sheet per prompt, then,
    as the last element and only if the panel is visible or has data, the
    button with the prompts' data; the bubble of the i-th item carries key i,
    and the sheet of the i-th prompt carries key i and sends that very
    prompt. *)
Theorem composer_actions_elements (Item : Type)
    (props : ComposerTextAreaActionsProps Item) :
  let data := agiAttachmentPrompts props in
  let items := match inReferenceTo props with Some l => l | None => [] end in
  match ComposerTextAreaActions props with
  | None => prompts data = [] /\ isVisible data = false /\ items = []
  | Some elements =>
    (prompts data <> [] \/ isVisible data = true \/ items <> [])
    /\ List.length elements
       = List.length items + List.length (prompts data)
         + (if isVisible data || hasData data then 1 else 0)
    /\ (forall i item, nth_error items i = Some item ->
          nth_error elements i = Some (InReferenceToBubble i item))
    /\ (forall i candidate, nth_error (prompts data) i = Some candidate ->
          nth_error elements (List.length items + i) = Some (PromptSheet Item i candidate))
    /\ nth_error elements (List.length items + List.length (prompts data))
       = (if isVisible data || hasData data
          then Some (AttachmentsPromptsButton Item data) else None)
  end.
Proof.
  intros data items; unfold ComposerTextAreaActions; fold data.
  assert (Hitems : match inReferenceTo props with
                   | Some l => mapIndexed (fun item index => InReferenceToBubble index item) l
                   | None => []
                   end
                   = mapIndexed (fun item index => InReferenceToBubble index item) items).
  { unfold items; destruct (inReferenceTo props); reflexivity. }
  assert (Hlen : hasLength (inReferenceTo props)
                 = match items with [] => false | _ => true end).
  { unfold items; destruct (inReferenceTo props) as [[|]|]; reflexivity. }
  rewrite Hitems, Hlen; clear Hitems Hlen.
  pose proof (composer_box_layout items (prompts data)
                (if (isVisible data || hasData data)%bool
                 then [AttachmentsPromptsButton Item data] else []))
    as (Hcount & Hbubbles & Hsheets & Htail).
  assert (Hbutton :
    nth_error
      (mapIndexed (fun item index => InReferenceToBubble index item) items
       ++ mapIndexed (fun candidate index => PromptSheet Item index candidate)
            (prompts data)
       ++ (if (isVisible data || hasData data)%bool
           then [AttachmentsPromptsButton Item data] else []))
      (List.length items + List.length (prompts data))
    = if (isVisible data || hasData data)%bool
      then Some (AttachmentsPromptsButton Item data) else None).
  { specialize (Htail 0); rewrite Nat.add_0_r in Htail; rewrite Htail.
    destruct (isVisible data || hasData data)%bool; reflexivity. }
  assert (Hlast : List.length (if (isVisible data || hasData data)%bool
                               then [AttachmentsPromptsButton Item data] else [])
                  = if (isVisible data || hasData data)%bool then 1 else 0).
  { destruct (isVisible data || hasData data)%bool; reflexivity. }
  rewrite Hlast in Hcount.
  destruct (prompts data) as [|p ps] eqn:Hp; cbn [hasLength negb andb].
  - destruct (isVisible data) eqn:Hv; cbn [negb andb].
    + split; [right; left; reflexivity|].
      split; [exact Hcount | split; [assumption | split; assumption]].
    + destruct items as [|it its]; cbn [negb].
      * repeat split.
      * split; [right; right; discriminate|].
        split; [exact Hcount | split; [assumption | split; assumption]].
  - split; [left; discriminate|].
    split; [exact Hcount | split; [assumption | split; assumption]].
Qed.

Lemma composer_actions_elements_witness :
  let props := mkComposerTextAreaActionsProps
                 (mkAgiAttachmentPromptsData ["Summarize"; "Translate"] false true)
                 (Some ["ref"]) in
  match ComposerTextAreaActions props with
  | Some elements =>
    nth_error elements 2 = Some (PromptSheet string 1 "Translate")
    /\ nth_error elements 3
       = Some (AttachmentsPromptsButton string (agiAttachmentPrompts props))
  | None => False
  end.
Proof.
  intros props.
  pose proof (composer_actions_elements props) as H; cbv zeta in H.
  destruct (ComposerTextAreaActions props) as [elements|].
  - destruct H as (_ & _ & _ & Hsheets & Hbutton).
    split; [exact (Hsheets 1 "Translate" eq_refl) | exact Hbutton].
  - destruct H as (Hp & _); discriminate Hp.
Defined.
